(** * Study-packet backend: a model of [main.py] and its specification

    The service has one pure generator ([generate_content]), one validating
    handler ([generate_endpoint]) and one diagnostic handler
    ([test_database]).  Python values are embedded as follows:

    - a [str] is the list of its Unicode code points ([list N]), so that
      [str.strip], slicing and [len] count code points as Python does;
    - a [dict] with string keys is a finite map ([gmap]); a dict display
      inserts its items from left to right, a later duplicate key winning;
    - an [int] is a [Z]; a [list] is a [list];
    - [raise] / [try ... except] are a result type and a small
      state-and-exception monad;
    - the framework answers 200 with the value a handler returns when the
      body can be encoded as UTF-8 JSON, and 500 when it cannot or when an
      exception other than an [HTTPException] leaves the handler. *)

From Stdlib Require Import ZArith NArith Ascii String.
From stdpp Require Import base option list gmap.

Local Open Scope Z_scope.

(** ** Strings *)

Abbreviation pystr := (list N).

(** A source literal made of ASCII characters only. *)
Definition lit (s : string) : pystr :=
  N_of_ascii <$> list_ascii_of_string s.
Arguments lit s%_string.
Arguments lit : simpl never.

(** [str.isspace] on one code point: the table of CPython's
    [_PyUnicode_IsWhitespace]. *)
Definition isspace (c : N) : bool :=
  ((0x09 <=? c) && (c <=? 0x0D) ||
   (0x1C <=? c) && (c <=? 0x20) ||
   (c =? 0x85) || (c =? 0xA0) || (c =? 0x1680) ||
   (0x2000 <=? c) && (c <=? 0x200A) ||
   (c =? 0x2028) || (c =? 0x2029) || (c =? 0x202F) ||
   (c =? 0x205F) || (c =? 0x3000))%N.

Fixpoint lstrip (s : pystr) : pystr :=
  match s with
  | [] => []
  | c :: s' => if isspace c then lstrip s' else s
  end.

Definition rstrip (s : pystr) : pystr := reverse (lstrip (reverse s)).

(** [s.strip()] *)
Definition strip (s : pystr) : pystr := rstrip (lstrip s).

(** Truth value of a [str]: non-empty. *)
Definition truthy (s : pystr) : bool :=
  match s with [] => false | _ :: _ => true end.

(** [x or y] on strings. *)
Definition py_or (x y : pystr) : pystr := if truthy x then x else y.

(** [s.startswith(pre)] *)
Fixpoint startswith (s pre : pystr) : bool :=
  match pre, s with
  | [], _ => true
  | _ :: _, [] => false
  | a :: pre', b :: s' => (a =? b)%N && startswith s' pre'
  end.

(** [sub in s]: some suffix of [s] starts with [sub]. *)
Fixpoint contains (s sub : pystr) : bool :=
  startswith s sub ||
  match s with
  | [] => false
  | _ :: s' => contains s' sub
  end.

(** The mathematical reading of "[sub] is a substring of [s]". *)
Definition Substring (sub s : pystr) : Prop :=
  ∃ pre post, s = pre ++ sub ++ post.

(** ** Exceptions *)

Inductive result (E A : Type) : Type :=
| Ok (a : A)
| Raise (e : E).
Arguments Ok {E A} a.
Arguments Raise {E A} e.

#[export] Instance result_ret {E} : MRet (result E) := λ A a, Ok a.
#[export] Instance result_bind {E} : MBind (result E) := λ A B f m,
  match m with
  | Ok a => f a
  | Raise e => Raise e
  end.

(** Total correctness: [m] returns normally and its value satisfies [P]. *)
Definition Returns {E A} (m : result E A) (P : A → Prop) : Prop :=
  ∃ a, m = Ok a ∧ P a.

(** Exceptions of the generation path. *)
Inductive exn : Type :=
| IndexError
| HTTPException (status_code : Z) (detail : pystr).

(** [l[i]] for an [int] index: negative indices count from the end, an
    index outside the list raises [IndexError]. *)
Definition getitem {A} (l : list A) (i : Z) : result exn A :=
  let j := if i <? 0 then i + Z.of_nat (length l) else i in
  if j <? 0 then Raise IndexError
  else match l !! Z.to_nat j with
       | Some a => Ok a
       | None => Raise IndexError
       end.

(** [{k0: v0, k1: v1, ...}] added to [d]: keys are evaluated and inserted
    from left to right. *)
Fixpoint dict_display {E V} (items : list (result E pystr * V))
    (d : gmap pystr V) : result E (gmap pystr V) :=
  match items with
  | [] => mret d
  | (key, v) :: rest => k ← key; dict_display rest (<[k:=v]> d)
  end.

(** ** The generator *)

Record QuizItem : Type := {
  q : pystr;
  options : list pystr;
  answer : Z
}.

Record GenerateResponse : Type := {
  base : pystr;
  subtopics : list pystr;
  explanations : gmap pystr pystr;
  examples : gmap pystr (list pystr);
  quizzes : gmap pystr (list QuizItem)
}.

Definition generate_content (topic : pystr) : result exn GenerateResponse :=
  let base := py_or (strip topic) (lit "Introduction to Learning") in
  let subtopics := [
    lit "Foundations of " ++ base;
    lit "Core Concepts in " ++ base;
    lit "Applying " ++ base;
    lit "Quick Review & Pitfalls"
  ] in
  explanations ← dict_display [
    (getitem subtopics 0,
      lit "Start with the fundamentals of " ++ base ++
      lit ". Clarify definitions, the problem " ++ base ++
      lit " tries to solve, and key terminology.");
    (getitem subtopics 1,
      lit "Dive into the main building blocks of " ++ base ++
      lit ". Understand how ideas connect and compare trade-offs.");
    (getitem subtopics 2,
      lit "Practice using " ++ base ++
      lit " in realistic scenarios. Work through step-by-step reasoning and examples.");
    (getitem subtopics 3,
      lit "Summarize what you've learned about " ++ base ++
      lit ", highlight common mistakes, and create a concise review list.")
  ] ∅;
  examples ← dict_display [
    (getitem subtopics 0, [
      lit "Define " ++ base ++ lit " in one sentence.";
      lit "List 3 real-world applications where " ++ base ++ lit " is useful.";
      lit "Explain why " ++ base ++ lit " matters for learners at your level."
    ]);
    (getitem subtopics 1, [
      lit "Describe a core concept of " ++ base ++ lit " and give a short example.";
      lit "Contrast two approaches used in " ++ base ++ lit " and when to pick each.";
      lit "What assumptions are common when studying " ++ base ++ lit "?"
    ]);
    (getitem subtopics 2, [
      lit "Walk through a worked example applying " ++ base ++ lit " step by step.";
      lit "Identify edge cases that can break naive use of " ++ base ++ lit ".";
      lit "Create a small challenge exercise involving " ++ base ++ lit "."
    ]);
    (getitem subtopics 3, [
      lit "Write a 5-bullet summary of " ++ base ++ lit ".";
      lit "Name two common pitfalls and how to avoid them in " ++ base ++ lit ".";
      lit "Draft 3 flashcards to remember key ideas in " ++ base ++ lit "."
    ])
  ] ∅;
  quizzes ← dict_display [
    (getitem subtopics 0, [
      {| q := lit "Which best describes the aim of " ++ base ++ lit "?";
         options := [
           lit "It replaces all prior knowledge";
           lit "It provides a framework of key ideas";
           lit "It is only a set of formulas";
           lit "It has no practical use"
         ];
         answer := 1 |};
      {| q := lit "A good first step when learning " ++ base ++ lit " is to:";
         options := [
           lit "Memorize random facts";
           lit "Skim advanced papers";
           lit "Clarify definitions and goals";
           lit "Skip to hard problems"
         ];
         answer := 2 |}
    ]);
    (getitem subtopics 1, [
      {| q := lit "Core concepts in " ++ base ++ lit " should be:";
         options := [
           lit "Learned in isolation only";
           lit "Connected to each other";
           lit "Ignored if difficult";
           lit "Left for later"
         ];
         answer := 1 |};
      {| q := lit "Trade-offs in " ++ base ++ lit " help you:";
         options := [
           lit "Pick approaches that fit the context";
           lit "Avoid making choices";
           lit "Always choose the most complex method";
           lit "Ignore constraints"
         ];
         answer := 0 |}
    ]);
    (getitem subtopics 2, [
      {| q := lit "When applying " ++ base ++ lit ", start by:";
         options := [
           lit "Writing code immediately";
           lit "Understanding the problem and constraints";
           lit "Skipping examples";
           lit "Only reading theory"
         ];
         answer := 1 |};
      {| q := lit "Edge cases are important because they:";
         options := [
           lit "Never occur";
           lit "Make solutions more entertaining";
           lit "Reveal hidden assumptions";
           lit "Reduce clarity"
         ];
         answer := 2 |}
    ]);
    (getitem subtopics 3, [
      {| q := lit "A concise review of " ++ base ++ lit " should:";
         options := [
           lit "List key points and pitfalls";
           lit "Introduce unrelated topics";
           lit "Avoid structure";
           lit "Be overly long"
         ];
         answer := 0 |};
      {| q := lit "Flashcards for " ++ base ++ lit " work best when they:";
         options := [
           lit "Ask clear, focused questions";
           lit "Contain essays";
           lit "Use only images";
           lit "Avoid spaced repetition"
         ];
         answer := 0 |}
    ])
  ] ∅;
  mret {|
    base := base;
    subtopics := subtopics;
    explanations := explanations;
    examples := examples;
    quizzes := quizzes
  |}.

(** [r["quizzes"][r["subtopics"][i]][j]], when both indices are in range
    and the label is a key. *)
Definition quiz_at (r : GenerateResponse) (i j : nat) : option QuizItem :=
  label ← subtopics r !! i;
  items ← quizzes r !! label;
  items !! j.

(** ** Handlers: state and exceptions *)

(** A handler body runs over a store [S] and may raise an [E]; the store
    keeps the writes made before a [raise]. *)
Definition Handler (S E A : Type) : Type := S → S * result E A.

#[export] Instance Handler_ret {S E} : MRet (Handler S E) := λ A a s, (s, Ok a).
#[export] Instance Handler_bind {S E} : MBind (Handler S E) := λ A B f m s,
  match m s with
  | (s', Ok a) => f a s'
  | (s', Raise e) => (s', Raise e)
  end.

Section Operations.
Context {S E : Type}.

Definition raise {A} (e : E) : Handler S E A := λ s, (s, Raise e).

Definition lift {A} (r : result E A) : Handler S E A := λ s, (s, r).

Definition get : Handler S E S := λ s, (s, Ok s).

Definition modify (f : S → S) : Handler S E () := λ s, (f s, Ok ()).

(** [try: body except ...: handler]; a handler that answers [None] does
    not match the exception, which then propagates. *)
Definition try_except {A} (body : Handler S E A)
    (handler : E → option (Handler S E A)) : Handler S E A := λ s,
  match body s with
  | (s', Ok a) => (s', Ok a)
  | (s', Raise e) =>
      match handler e with
      | Some h => h s'
      | None => (s', Raise e)
      end
  end.

End Operations.

(** ** What can be sent *)

(** A lone surrogate is a code point that UTF-8 cannot encode. *)
Definition is_surrogate (c : N) : bool := ((0xD800 <=? c) && (c <=? 0xDFFF))%N.

(** [s.encode("utf-8")] does not raise. *)
Definition utf8_encodable (s : pystr) : bool :=
  forallb (λ c, negb (is_surrogate c)) s.

(** Every item of a dict satisfies [f]. *)
Definition all_items {V} (f : pystr → V → bool) (m : gmap pystr V) : bool :=
  bool_decide (map_Forall (λ k v, f k v = true) m).

(** A response body, with the test that all its text can be encoded. *)
Class JsonBody (A : Type) : Type := encodable : A → bool.

Definition quiz_item_encodable (item : QuizItem) : bool :=
  utf8_encodable (q item) && forallb utf8_encodable (options item).

#[export] Instance GenerateResponse_json : JsonBody GenerateResponse := λ r,
  utf8_encodable (base r) &&
  forallb utf8_encodable (subtopics r) &&
  all_items (λ k text, utf8_encodable k && utf8_encodable text)
    (explanations r) &&
  all_items (λ k prompts, utf8_encodable k && forallb utf8_encodable prompts)
    (examples r) &&
  all_items (λ k items, utf8_encodable k && forallb quiz_item_encodable items)
    (quizzes r).

(** What the framework sends back for a handler's outcome: the returned
    value with status 200 when it can be encoded as UTF-8 JSON and 500 when
    it cannot, the status and detail of an [HTTPException], and 500 for any
    other exception. *)
Inductive http_body (A : Type) : Type :=
| Json (a : A)
| Detail (detail : pystr)
| InternalServerError.
Arguments Json {A} a.
Arguments Detail {A} detail.
Arguments InternalServerError {A}.

Record http_response (A : Type) : Type := {
  status : Z;
  body : http_body A
}.
Arguments status {A} _.
Arguments body {A} _.

Class HttpError (E : Type) : Type :=
  error_response : ∀ A, E → http_response A.

Definition respond {E} `{HttpError E} {A} `{JsonBody A} (r : result E A)
    : http_response A :=
  match r with
  | Ok a =>
      if encodable a then {| status := 200; body := Json a |}
      else {| status := 500; body := InternalServerError |}
  | Raise e => error_response A e
  end.

#[export] Instance exn_http_error : HttpError exn := λ A e,
  match e with
  | HTTPException status_code detail =>
      {| status := status_code; body := Detail detail |}
  | IndexError => {| status := 500; body := InternalServerError |}
  end.

(** ** POST /api/generate *)

Record GenerateRequest : Type := { topic : pystr }.

(** The store of the generation path is the list of topics the generator
    has been called with. *)
Definition call_generate_content (topic : pystr)
    : Handler (list pystr) exn GenerateResponse :=
  λ calls, (calls ++ [topic], generate_content topic).

Definition generate_endpoint (payload : GenerateRequest)
    : Handler (list pystr) exn GenerateResponse :=
  let topic := strip (py_or (topic payload) (lit "")) in
  if negb (truthy topic) then
    raise (HTTPException 400 (lit "Topic is required"))
  else
    data ← call_generate_content topic;
    mret data.

(** One request served from a fresh store: the generator calls made and
    the response sent. *)
Definition post_api_generate (payload : GenerateRequest)
    : list pystr * http_response GenerateResponse :=
  let '(calls, r) := generate_endpoint payload [] in (calls, respond r).

(** ** GET /test *)

(** The classes the handler tells apart: [ImportError] (a subclass of
    [Exception]), any other instance of [Exception], and the exceptions
    that are not instances of [Exception] ([SystemExit],
    [KeyboardInterrupt], ...). *)
Inductive exception_class : Type :=
| ImportError
| Exception
| BaseException.

(** An exception raised by the database integration, as the handler sees
    it: its class and [str(e)]. *)
Record py_exception : Type := {
  cls : exception_class;
  str : pystr
}.

(** [isinstance(e, ImportError)] *)
Definition is_ImportError (e : py_exception) : bool :=
  match cls e with ImportError => true | _ => false end.

(** [isinstance(e, Exception)] *)
Definition is_Exception (e : py_exception) : bool :=
  match cls e with BaseException => false | _ => true end.

#[export] Instance py_exception_http_error : HttpError py_exception := λ A _,
  {| status := 500; body := InternalServerError |}.

Inductive attr (A : Type) : Type :=
| NoAttribute
| Attribute (a : A)
| AttributeRaises (e : py_exception).
Arguments NoAttribute {A}.
Arguments Attribute {A} a.
Arguments AttributeRaises {A} e.

(** The [db] object of the optional [database] module. *)
Record Database : Type := {
  name : attr pystr;
  list_collection_names : result py_exception (list pystr)
}.

(** The surroundings of one request: what [from database import db] does
    (raise, or bind [db] to [None] or to an object), and [os.getenv]. *)
Record World : Type := {
  import_db : result py_exception (option Database);
  getenv : pystr → option pystr
}.

Inductive value : Type :=
| VNone
| VStr (s : pystr)
| VList (l : list pystr).

Definition value_encodable (v : value) : bool :=
  match v with
  | VNone => true
  | VStr s => utf8_encodable s
  | VList l => forallb utf8_encodable l
  end.

#[export] Instance response_json : JsonBody (gmap pystr value) :=
  all_items (λ k v, utf8_encodable k && value_encodable v).

Definition check_mark : pystr := [0x2705%N].
Definition cross_mark : pystr := [0x274C%N].
Definition warning_sign : pystr := [0x26A0%N; 0xFE0F%N].

Definition dict_literal {V} (items : list (pystr * V)) : gmap pystr V :=
  foldl (λ d kv, <[kv.1:=kv.2]> d) ∅ items.

(** [response[key] = v] *)
Definition setitem {E} (key : pystr) (v : value) : Handler (gmap pystr value) E () :=
  modify (<[key:=v]>).

(** [hasattr(db, 'name')]: only a missing attribute is swallowed. *)
Definition hasattr_name (db : Database) : result py_exception bool :=
  match name db with
  | NoAttribute => Ok false
  | Attribute _ => Ok true
  | AttributeRaises e => Raise e
  end.

(** [db.name] *)
Definition getattr_name (db : Database) : result py_exception pystr :=
  match name db with
  | Attribute a => Ok a
  | AttributeRaises e => Raise e
  | NoAttribute =>
      Raise {| cls := Exception;
               str := lit "'Database' object has no attribute 'name'" |}
  end.

(** Truth value of [os.getenv(key)]: set, and not the empty string. *)
Definition env_set (w : World) (key : pystr) : bool :=
  match getenv w key with
  | Some v => truthy v
  | None => false
  end.

Definition test_database (w : World)
    : result py_exception (gmap pystr value) :=
  let response := dict_literal [
    (lit "backend", VStr (check_mark ++ lit " Running"));
    (lit "database", VStr (cross_mark ++ lit " Not Available"));
    (lit "database_url", VNone);
    (lit "database_name", VNone);
    (lit "connection_status", VStr (lit "Not Connected"));
    (lit "collections", VList [])
  ] in
  let run : Handler (gmap pystr value) py_exception (gmap pystr value) :=
    try_except (
      db ← lift (import_db w);
      match db with
      | Some db =>
          setitem (lit "database") (VStr (check_mark ++ lit " Available"));;
          setitem (lit "database_url") (VStr (check_mark ++ lit " Configured"));;
          has ← lift (hasattr_name db);
          name ← (if has : bool then lift (getattr_name db)
                  else mret (check_mark ++ lit " Connected"));
          setitem (lit "database_name") (VStr name);;
          setitem (lit "connection_status") (VStr (lit "Connected"));;
          try_except (
            collections ← lift (list_collection_names db);
            setitem (lit "collections") (VList (take 10 collections));;
            setitem (lit "database")
              (VStr (check_mark ++ lit " Connected & Working"))
          ) (λ e,
            if is_Exception e then
              Some (setitem (lit "database")
                (VStr (warning_sign ++ lit "  Connected but Error: "
                       ++ take 50 (str e))))
            else None)
      | None =>
          setitem (lit "database")
            (VStr (warning_sign ++ lit "  Available but not initialized"))
      end
    ) (λ e,
      if is_ImportError e then
        Some (setitem (lit "database")
          (VStr (cross_mark
                 ++ lit " Database module not found (run enable-database first)")))
      else if is_Exception e then
        Some (setitem (lit "database")
          (VStr (cross_mark ++ lit " Error: " ++ take 50 (str e))))
      else None);;
    setitem (lit "database_url")
      (VStr (if env_set w (lit "DATABASE_URL")
             then check_mark ++ lit " Set" else cross_mark ++ lit " Not Set"));;
    setitem (lit "database_name")
      (VStr (if env_set w (lit "DATABASE_NAME")
             then check_mark ++ lit " Set" else cross_mark ++ lit " Not Set"));;
    get
  in
  (run response).2.

Definition get_test (w : World) : http_response (gmap pystr value) :=
  respond (test_database w).

(** ** Vocabulary of the specification *)


(** The exceptions the world raises at the operations of the handler. *)
Definition raised (w : World) : list py_exception :=
  match import_db w with
  | Raise e => [e]
  | Ok None => []
  | Ok (Some db) =>
      match name db with AttributeRaises e => [e] | _ => [] end ++
      match list_collection_names db with Raise e => [e] | Ok _ => [] end
  end.


(** Every exception of the world is an instance of [Exception]. *)
Definition catchable (w : World) : bool := forallb is_Exception (raised w).


(** [e] is an exception of the world that [except Exception] lets through. *)
Definition escapes (w : World) (e : py_exception) : Prop :=
  is_Exception e = false ∧ e ∈ raised w.

(** The handler either returns a body that satisfies [P], or lets through
    an exception of the world that is not an instance of [Exception]. *)
Definition Answers (w : World) (P : gmap pystr value → Prop) : Prop :=
  match test_database w with
  | Ok response => P response
  | Raise e => escapes w e
  end.


(** * Properties *)

(** ** Strings *)

Example isspace_table :
  isspace <$> [0x08; 0x09; 0x0D; 0x1B; 0x20; 0x41; 0xA0; 0x200B; 0x3000]%N
  = [false; true; true; false; true; false; true; false; true].
Proof. reflexivity. Qed.

Example strip_unicode :
  strip ([0x3000; 0x20]%N ++ lit "a b" ++ [0x0A; 0xA0]%N) = lit "a b".
Proof. reflexivity. Qed.

Section StringFacts.
Implicit Types (s pre sub : pystr) (c : N).

Lemma lstrip_nil s : lstrip s = [] ↔ forallb isspace s = true.
Proof.
  induction s as [|a s IH]; simpl; [done|].
  destruct (isspace a); simpl; [exact IH | split; discriminate].
Qed.

Lemma lstrip_head s c r : lstrip s = c :: r → isspace c = false.
Proof.
  induction s as [|a s IH]; simpl; [discriminate|].
  destruct (isspace a) eqn:Ha; [exact IH|].
  intros [= <- _]. exact Ha.
Qed.

Lemma lstrip_keep c s : isspace c = false → lstrip (c :: s) = c :: s.
Proof. simpl. by intros ->. Qed.

Lemma lstrip_idemp s : lstrip (lstrip s) = lstrip s.
Proof.
  destruct (lstrip s) as [|c r] eqn:E; [done|].
  apply lstrip_keep. by eapply lstrip_head.
Qed.

Lemma lstrip_snoc s c : isspace c = false → lstrip (s ++ [c]) = lstrip s ++ [c].
Proof.
  intros Hc. induction s as [|a s IH]; simpl.
  - by rewrite Hc.
  - by destruct (isspace a).
Qed.

Lemma rstrip_cons c s : isspace c = false → rstrip (c :: s) = c :: rstrip s.
Proof.
  intros Hc. unfold rstrip.
  by rewrite reverse_cons, lstrip_snoc, reverse_snoc.
Qed.

Lemma rstrip_idemp s : rstrip (rstrip s) = rstrip s.
Proof. unfold rstrip. by rewrite reverse_involutive, lstrip_idemp. Qed.

(** A stripped string has no leading whitespace left. *)
Lemma lstrip_strip s : lstrip (strip s) = strip s.
Proof.
  unfold strip. destruct (lstrip s) as [|c r] eqn:E; [done|].
  apply lstrip_head in E. rewrite rstrip_cons by done.
  by apply lstrip_keep.
Qed.

Lemma strip_idemp s : strip (strip s) = strip s.
Proof.
  unfold strip at 1. rewrite lstrip_strip.
  unfold strip. apply rstrip_idemp.
Qed.

(** [strip] answers the empty string exactly on whitespace-only input. *)
Lemma strip_nil s : strip s = [] ↔ forallb isspace s = true.
Proof.
  rewrite <- lstrip_nil. unfold strip. split.
  - destruct (lstrip s) as [|c r] eqn:E; [done|].
    apply lstrip_head in E. by rewrite rstrip_cons.
  - by intros ->.
Qed.

Lemma py_or_empty s : py_or s (lit "") = s.
Proof. by destruct s. Qed.

Lemma startswith_spec s pre : startswith s pre = true ↔ pre `prefix_of` s.
Proof.
  revert s. induction pre as [|a pre IH]; intros [|b s]; simpl.
  - split; [intros _; apply prefix_nil | done].
  - split; [intros _; apply prefix_nil | done].
  - split; [done | intros H; by apply prefix_nil_not in H].
  - rewrite andb_true_iff, N.eqb_eq, IH. split.
    + intros [-> H]. by apply prefix_cons.
    + intros H. split; [by eapply prefix_cons_inv_1 | by eapply prefix_cons_inv_2].
Qed.

(** The search [contains] decides [Substring]. *)
Lemma contains_spec s sub : contains s sub = true ↔ Substring sub s.
Proof.
  induction s as [|a s IH].
  - cbn [contains]. rewrite orb_false_r, startswith_spec. split.
    + intros [k Hk]. by exists [], k.
    + intros ([|? ?] & post & H); [by exists post | done].
  - cbn [contains]. rewrite orb_true_iff, startswith_spec, IH. split.
    + intros [[k Hk] | (pre & post & H)].
      * by exists [], k.
      * exists (a :: pre), post. by rewrite H.
    + intros ([|x pre] & post & H).
      * left. by exists post.
      * right. injection H as _ H. by exists pre, post.
Qed.

Lemma Substring_middle pre sub post : Substring sub (pre ++ sub ++ post).
Proof. by exists pre, post. Qed.

Lemma Substring_end pre sub : Substring sub (pre ++ sub).
Proof. exists pre, []. by rewrite app_nil_r. Qed.

End StringFacts.

Create HintDb pystr.
#[export] Hint Resolve Substring_middle Substring_end : pystr.

(** ** Running the generator *)

Lemma Returns_inv {E A} (m : result E A) (P : A → Prop) (a : A) :
  Returns m P → m = Ok a → P a.
Proof. intros (a' & Ha' & HP) Ha. congruence. Qed.

Lemma getitem_Ok {A} (l : list A) (i : Z) (a : A) :
  (0 <=? i) = true → l !! Z.to_nat i = Some a → getitem l i = Ok a.
Proof.
  intros Hi Ha. apply Z.leb_le in Hi. unfold getitem.
  assert ((i <? 0) = false) as E by (apply Z.ltb_ge; lia).
  cbv zeta. by rewrite E, E, Ha.
Qed.

Example getitem_last : getitem [lit "a"; lit "b"] (-1) = Ok (lit "b").
Proof. reflexivity. Qed.

Example getitem_out_of_range : getitem [lit "a"; lit "b"] 2 = Raise IndexError.
Proof. reflexivity. Qed.

(** Runs [generate_content] on a symbolic topic: names the effective base
    [b], resolves the twelve [subtopics[i]], builds the three dicts and
    leaves the postcondition on the record's fields. *)
Ltac run_generator b :=
  unfold generate_content;
  set (b := py_or _ (lit "Introduction to Learning"));
  cbv zeta;
  repeat match goal with
         | |- context [getitem ?l ?i] =>
             rewrite (getitem_Ok l i _ eq_refl eq_refl)
         end;
  cbn [dict_display mbind mret result_bind result_ret];
  eexists; split; [reflexivity|];
  cbn [base subtopics explanations examples quizzes].

Lemma generate_content_returns topic : ∃ r, generate_content topic = Ok r.
Proof.
  assert (Returns (generate_content topic) (λ _, True)) as (r & Hr & _)
    by (run_generator b; exact I).
  by exists r.
Qed.

Lemma generate_content_labels topic :
  Returns (generate_content topic) (λ r,
    base r = py_or (strip topic) (lit "Introduction to Learning") ∧
    subtopics r = [lit "Foundations of " ++ base r;
                   lit "Core Concepts in " ++ base r;
                   lit "Applying " ++ base r;
                   lit "Quick Review & Pitfalls"]).
Proof. by run_generator b. Qed.

(** The four labels differ in their first character, whatever the base. *)
Lemma labels_NoDup (b : pystr) :
  NoDup [lit "Foundations of " ++ b; lit "Core Concepts in " ++ b;
         lit "Applying " ++ b; lit "Quick Review & Pitfalls"].
Proof.
  repeat (apply NoDup_cons; split); [| | | | apply NoDup_nil_2].
  all: rewrite ?elem_of_cons, elem_of_nil.
  all: intros H; repeat destruct H as [H|H]; try done.
  all: vm_compute in H; discriminate.
Qed.

(** A display of four distinct keys has exactly these keys ... *)
Lemma dom_display4 {V} (k0 k1 k2 k3 : pystr) (v0 v1 v2 v3 : V) :
  dom (<[k3:=v3]> (<[k2:=v2]> (<[k1:=v1]> (<[k0:=v0]> (∅ : gmap pystr V)))))
  = list_to_set [k0; k1; k2; k3].
Proof.
  apply set_eq. intros x.
  rewrite !dom_insert, dom_empty, elem_of_list_to_set.
  rewrite !elem_of_union, !elem_of_singleton, !elem_of_cons, elem_of_nil,
    elem_of_empty.
  tauto.
Qed.

(** ... and maps the i-th key to the i-th value. *)
Lemma lookup_display4 {V W} (k0 k1 k2 k3 : pystr) (v0 v1 v2 v3 : V) (i : nat)
    (f : V → option W) :
  NoDup [k0; k1; k2; k3] →
  ([k0; k1; k2; k3] !! i) ≫=
    (λ k, (<[k3:=v3]> (<[k2:=v2]> (<[k1:=v1]> (<[k0:=v0]> (∅ : gmap pystr V))))
           !! k) ≫= f)
  = ([v0; v1; v2; v3] !! i) ≫= f.
Proof.
  intros Hnd.
  assert (k0 ≠ k1 ∧ k0 ≠ k2 ∧ k0 ≠ k3 ∧ k1 ≠ k2 ∧ k1 ≠ k3 ∧ k2 ≠ k3)
    as (H01 & H02 & H03 & H12 & H13 & H23).
  { revert Hnd. rewrite !NoDup_cons, !elem_of_cons, elem_of_nil. tauto. }
  destruct i as [|[|[|[|i]]]]; cbn [lookup list_lookup mbind option_bind];
    [..|reflexivity].
  - rewrite !lookup_insert_ne by congruence. by rewrite lookup_insert_eq.
  - rewrite !lookup_insert_ne by congruence. by rewrite lookup_insert_eq.
  - rewrite !lookup_insert_ne by congruence. by rewrite lookup_insert_eq.
  - by rewrite lookup_insert_eq.
Qed.

Lemma review_question topic :
  Returns (generate_content topic) (λ r,
    q <$> quiz_at r 3 0
    = Some (lit "A concise review of " ++ base r ++ lit " should:")).
Proof.
  run_generator b. unfold quiz_at. cbn [subtopics quizzes].
  by rewrite lookup_display4 by apply labels_NoDup.
Qed.

(** The spec's sample request: [subtopics[0]] and
    [quizzes[subtopics[1]][1].answer]. *)
Example neural_networks :
  Returns (generate_content (lit "Neural Networks")) (λ r,
    subtopics r !! 0%nat = Some (lit "Foundations of Neural Networks") ∧
    answer <$> quiz_at r 1 1 = Some 0).
Proof.
  run_generator b. split; [reflexivity|].
  unfold quiz_at. cbn [subtopics quizzes].
  by rewrite lookup_display4 by apply labels_NoDup.
Qed.

(** ** The generator's contract *)

(** C1. For every topic, the generator returns a result whose [base] is the
    stripped topic when that is non-empty, and the text
    "Introduction to Learning" when the topic is empty or all whitespace. *)
Theorem generate_content_base topic :
  Returns (generate_content topic) (λ r,
    (strip topic ≠ [] → base r = strip topic) ∧
    (forallb isspace topic = true → base r = lit "Introduction to Learning")).
Proof.
  run_generator b. subst b. unfold py_or. split.
  - intros H. by destruct (strip topic).
  - intros H. apply strip_nil in H. by rewrite H.
Qed.

Lemma generate_content_base_witness :
  Returns (generate_content (lit "  Rust ")) (λ r, base r = lit "Rust") ∧
  Returns (generate_content (lit "   ")) (λ r,
    base r = lit "Introduction to Learning").
Proof.
  split.
  - destruct (generate_content_base (lit "  Rust ")) as (r & Hr & H1 & _).
    exists r. split; [exact Hr|]. rewrite H1; [reflexivity|].
    vm_compute. discriminate.
  - destruct (generate_content_base (lit "   ")) as (r & Hr & _ & H2).
    exists r. split; [exact Hr|]. apply H2. reflexivity.
Defined.

(** C3 as stated fails: for the topic "Neural Networks" the fourth label,
    "Quick Review & Pitfalls", does not contain the base. *)
Lemma subtopics_contain_base_cex :
  ¬ Returns (generate_content (lit "Neural Networks")) (λ r,
      length (subtopics r) = 4%nat ∧
      Forall (Substring (base r)) (subtopics r)).
Proof.
  intros (r & Hr & _ & H).
  destruct (Returns_inv _ _ r (generate_content_labels _) Hr) as [Hb Hs].
  rewrite Hs, !Forall_cons in H. destruct H as (_ & _ & _ & H & _).
  apply contains_spec in H. rewrite Hb in H. vm_compute in H. discriminate.
Qed.

(** C3, amended. For every topic there are four subtopic labels; each of
    the first three contains the base as a substring, and the fourth is the
    fixed text "Quick Review & Pitfalls". *)
Theorem subtopics_contain_base topic :
  Returns (generate_content topic) (λ r,
    length (subtopics r) = 4%nat ∧
    Forall (Substring (base r)) (take 3 (subtopics r)) ∧
    subtopics r !! 3%nat = Some (lit "Quick Review & Pitfalls")).
Proof.
  run_generator b. split; [reflexivity|]. split; [|reflexivity].
  cbn [take]. repeat apply Forall_cons_2; auto with pystr.
Qed.

(** C4 as stated fails: the question text at subtopic index 3 changes with
    the base ("A concise review of Algebra should:" against
    "A concise review of Botany should:"). *)
Lemma quiz_review_question_cex :
  ¬ Returns (generate_content (lit "Algebra")) (λ r1,
      Returns (generate_content (lit "Botany")) (λ r2,
        q <$> quiz_at r1 3 0 = q <$> quiz_at r2 3 0)).
Proof.
  intros (r1 & Hr1 & r2 & Hr2 & H).
  rewrite (Returns_inv _ _ r1 (review_question _) Hr1) in H.
  rewrite (Returns_inv _ _ r2 (review_question _) Hr2) in H.
  destruct (Returns_inv _ _ r1 (generate_content_labels _) Hr1) as [Hb1 _].
  destruct (Returns_inv _ _ r2 (generate_content_labels _) Hr2) as [Hb2 _].
  rewrite Hb1, Hb2 in H. vm_compute in H. discriminate.
Qed.

(** C4, amended. For any two topics, the quiz items at the same position
    have the same options and the same answer index; the question text
    contains the base at every position except the second item of
    subtopic index 2, whose question is the fixed text
    "Edge cases are important because they:". *)
Theorem quiz_templates topic1 topic2 :
  Returns (generate_content topic1) (λ r1,
    Returns (generate_content topic2) (λ r2,
      (∀ i j, options <$> quiz_at r1 i j = options <$> quiz_at r2 i j) ∧
      (∀ i j, answer <$> quiz_at r1 i j = answer <$> quiz_at r2 i j) ∧
      Forall (λ ij, ∃ item, quiz_at r1 ij.1 ij.2 = Some item ∧
                            Substring (base r1) (q item))
        [(0, 0); (0, 1); (1, 0); (1, 1); (2, 0); (3, 0); (3, 1)]%nat ∧
      q <$> quiz_at r1 2 1
      = Some (lit "Edge cases are important because they:"))).
Proof.
  run_generator b1. run_generator b2.
  unfold quiz_at. cbn [subtopics quizzes].
  split; [|split; [|split]].
  - intros i j. rewrite !lookup_display4 by apply labels_NoDup.
    by destruct i as [|[|[|[|i]]]], j as [|[|j]].
  - intros i j. rewrite !lookup_display4 by apply labels_NoDup.
    by destruct i as [|[|[|[|i]]]], j as [|[|j]].
  - repeat apply Forall_cons_2; [..|apply Forall_nil_2].
    all: cbn [fst snd]; rewrite lookup_display4 by apply labels_NoDup.
    all: eexists; split; [reflexivity|]; cbn [q]; auto with pystr.
  - by rewrite lookup_display4 by apply labels_NoDup.
Qed.

(** C5. For every topic the four labels come in the order Foundations,
    Core Concepts, Applying, Quick Review, and no two of them are equal. *)
Theorem subtopics_fixed_order topic :
  Returns (generate_content topic) (λ r,
    (∃ l0 l1 l2 l3, subtopics r = [l0; l1; l2; l3] ∧
       startswith l0 (lit "Foundations") = true ∧
       startswith l1 (lit "Core Concepts") = true ∧
       startswith l2 (lit "Applying") = true ∧
       startswith l3 (lit "Quick Review") = true) ∧
    NoDup (subtopics r)).
Proof.
  run_generator b. split; [|apply labels_NoDup].
  do 4 eexists. split; [reflexivity|]. clearbody b.
  repeat split; reflexivity.
Qed.

(** C6. For every topic the keys of [explanations], [examples] and
    [quizzes] are exactly the four subtopic labels of the same result;
    every [examples] entry has three prompts and every [quizzes] entry two
    items. *)
Theorem maps_keyed_by_subtopics topic :
  Returns (generate_content topic) (λ r,
    let labels : gset pystr := list_to_set (subtopics r) in
    size labels = 4%nat ∧
    dom (explanations r) = labels ∧
    dom (examples r) = labels ∧
    dom (quizzes r) = labels ∧
    map_Forall (λ _ prompts, length prompts = 3%nat) (examples r) ∧
    map_Forall (λ _ items, length items = 2%nat) (quizzes r)).
Proof.
  run_generator b. cbv zeta. split; [|split; [|split; [|split; [|split]]]].
  - rewrite size_list_to_set by apply labels_NoDup. reflexivity.
  - apply dom_display4.
  - apply dom_display4.
  - apply dom_display4.
  - repeat (apply map_Forall_insert_2; [reflexivity|]). apply map_Forall_empty.
  - repeat (apply map_Forall_insert_2; [reflexivity|]). apply map_Forall_empty.
Qed.

(** C7. For every topic, every quiz item has exactly four options and an
    answer index that points into them. *)
Theorem quiz_items_well_formed topic :
  Returns (generate_content topic) (λ r,
    map_Forall (λ _ items,
      Forall (λ item,
        length (options item) = 4%nat ∧
        0 ≤ answer item < Z.of_nat (length (options item))) items)
      (quizzes r)).
Proof.
  run_generator b.
  repeat (apply map_Forall_insert_2; [|]); [..|apply map_Forall_empty].
  all: repeat apply Forall_cons_2; [..|apply Forall_nil_2].
  all: cbn [options answer length]; split; [reflexivity|lia].
Qed.

(** C10. Stripping the topic before the call does not change the
    generator's outcome. *)
Theorem generate_content_strip topic :
  generate_content topic = generate_content (strip topic).
Proof. unfold generate_content. by rewrite strip_idemp. Qed.

(** ** Encoding *)

Lemma isspace_not_surrogate (c : N) : isspace c = true → is_surrogate c = false.
Proof.
  unfold isspace, is_surrogate. intros H.
  apply andb_false_iff. rewrite !N.leb_gt.
  repeat (rewrite orb_true_iff in H || rewrite andb_true_iff in H).
  rewrite !N.leb_le, !N.eqb_eq in H. lia.
Qed.

Lemma utf8_encodable_app (s1 s2 : pystr) :
  utf8_encodable (s1 ++ s2) = utf8_encodable s1 && utf8_encodable s2.
Proof. apply forallb_app. Qed.

Lemma utf8_encodable_reverse (s : pystr) :
  utf8_encodable (reverse s) = utf8_encodable s.
Proof.
  induction s as [|c s IH]; [done|].
  rewrite reverse_cons, utf8_encodable_app, IH. cbn [utf8_encodable forallb].
  by rewrite andb_true_r, andb_comm.
Qed.

Lemma utf8_encodable_lstrip (s : pystr) :
  utf8_encodable (lstrip s) = utf8_encodable s.
Proof.
  induction s as [|c s IH]; [done|]. cbn [lstrip].
  destruct (isspace c) eqn:E; [|done].
  cbn [utf8_encodable forallb]. by rewrite (isspace_not_surrogate c E), IH.
Qed.

(** Stripping removes whitespace only, which UTF-8 can encode. *)
Lemma utf8_encodable_strip (s : pystr) :
  utf8_encodable (strip s) = utf8_encodable s.
Proof.
  unfold strip, rstrip.
  by rewrite utf8_encodable_reverse, utf8_encodable_lstrip,
    utf8_encodable_reverse, utf8_encodable_lstrip.
Qed.



Lemma all_items_empty {V} (f : pystr → V → bool) : all_items f ∅ = true.
Proof. apply bool_decide_eq_true_2, map_Forall_empty. Qed.

Lemma all_items_insert {V} (f : pystr → V → bool) (k : pystr) (v : V)
    (m : gmap pystr V) :
  f k v = true → all_items f m = true → all_items f (<[k:=v]> m) = true.
Proof.
  unfold all_items. rewrite !bool_decide_eq_true. intros Hk Hm.
  by apply map_Forall_insert_2.
Qed.

(** Pieces of text: literals are ASCII, the base is [b]. *)
Ltac solve_encodable Hb :=
  cbn [forallb]; unfold quiz_item_encodable; cbn [forallb q options];
  unfold utf8_encodable in *; rewrite ?forallb_app, ?Hb; reflexivity.

(** The generated body can be encoded exactly when the base can. *)
Lemma generate_content_encodable topic :
  Returns (generate_content topic) (λ r,
    encodable r = utf8_encodable (base r)).
Proof.
  run_generator b. unfold encodable, GenerateResponse_json.
  cbn [base subtopics explanations examples quizzes].
  destruct (utf8_encodable b) eqn:Hb; [|reflexivity].
  rewrite !andb_true_iff. split; [split; [split; [split|]|]|].
  - reflexivity.
  - solve_encodable Hb.
  - repeat (apply all_items_insert; [solve_encodable Hb|]).
    apply all_items_empty.
  - repeat (apply all_items_insert; [solve_encodable Hb|]).
    apply all_items_empty.
  - repeat (apply all_items_insert; [solve_encodable Hb|]).
    apply all_items_empty.
Qed.

(** ** POST /api/generate *)

(** The two ways a request is served. *)
Lemma post_api_generate_cases payload :
  (strip (topic payload) = [] ∧
   post_api_generate payload
   = ([], {| status := 400; body := Detail (lit "Topic is required") |})) ∨
  (strip (topic payload) ≠ [] ∧
   ∃ r, generate_content (strip (topic payload)) = Ok r ∧
        base r = strip (topic payload) ∧
        post_api_generate payload
        = ([strip (topic payload)],
           if utf8_encodable (topic payload)
           then {| status := 200; body := Json r |}
           else {| status := 500; body := InternalServerError |})).
Proof.
  unfold post_api_generate, generate_endpoint. rewrite py_or_empty.
  destruct (strip (topic payload)) as [|c s] eqn:E; [by left|right].
  split; [done|]. cbn [truthy negb]. unfold call_generate_content.
  cbn [mbind Handler_bind mret Handler_ret app].
  destruct (generate_content_returns (c :: s)) as [r Hr].
  destruct (Returns_inv _ _ r (generate_content_labels _) Hr) as [Hb _].
  pose proof (Returns_inv _ _ r (generate_content_encodable _) Hr) as He.
  cbv beta in He.
  assert (strip (c :: s) = c :: s) as Hs by (rewrite <- E; apply strip_idemp).
  rewrite Hs in Hb. cbn [py_or truthy] in Hb.
  rewrite Hb, <- E, utf8_encodable_strip in He.
  exists r. split; [exact Hr|]. split; [exact Hb|].
  cbv [mbind Handler_bind mret Handler_ret]. rewrite Hr.
  cbv [respond app]. by rewrite He.
Qed.

(** C2 as stated fails: the topic made of the lone surrogate U+D800 is not
    blank, the handler returns the generator's result for it, and the body
    cannot be encoded: the answer is 500, not 200. *)
Lemma generate_endpoint_surrogate_cex :
  strip (topic {| topic := [0xD800%N] |}) ≠ [] ∧
  status (post_api_generate {| topic := [0xD800%N] |}).2 = 500.
Proof.
  split; [by vm_compute|].
  destruct (post_api_generate_cases {| topic := [0xD800%N] |})
    as [[E _]|(_ & r & _ & _ & ->)].
  - vm_compute in E. discriminate E.
  - reflexivity.
Qed.

(** C2, amended. A request whose stripped topic is empty is answered 400
    with the detail "Topic is required" and the generator is not called;
    for any other request the generator is called once, with the stripped
    topic, and its result is the body of a 200 answer when the topic holds
    no lone surrogate; when it holds one the body cannot be encoded and the
    answer is 500. *)
Theorem generate_endpoint_validation payload :
  (strip (topic payload) = [] →
     post_api_generate payload
     = ([], {| status := 400; body := Detail (lit "Topic is required") |})) ∧
  (strip (topic payload) ≠ [] →
     ∃ r, generate_content (strip (topic payload)) = Ok r ∧
          post_api_generate payload
          = ([strip (topic payload)],
             if utf8_encodable (topic payload)
             then {| status := 200; body := Json r |}
             else {| status := 500; body := InternalServerError |})).
Proof.
  destruct (post_api_generate_cases payload) as [[E H]|(E & r & Hr & _ & H)].
  - split; [done|]. by intros [].
  - split; [by intros ?|]. intros _. by exists r.
Qed.

Lemma generate_endpoint_validation_witness :
  post_api_generate {| topic := lit "   " |}
  = ([], {| status := 400; body := Detail (lit "Topic is required") |}) ∧
  ∃ r, generate_content (lit "Neural Networks") = Ok r ∧
       post_api_generate {| topic := lit " Neural Networks " |}
       = ([lit "Neural Networks"], {| status := 200; body := Json r |}).
Proof.
  split.
  - apply (generate_endpoint_validation {| topic := lit "   " |}). reflexivity.
  - apply (generate_endpoint_validation {| topic := lit " Neural Networks " |}).
    vm_compute. discriminate.
Defined.

(** ** GET /test *)

Ltac key_ne := let H := fresh in intros H; vm_compute in H; discriminate H.

(** Reads a key of the response through the writes made to it. *)
Ltac lookup_response :=
  repeat first [rewrite lookup_insert_eq | rewrite lookup_insert_ne by key_ne].

Ltac run_handler :=
  cbv [get_test respond test_database try_except mbind Handler_bind mret
       Handler_ret lift setitem modify get raise hasattr_name getattr_name snd
       dict_literal foldl fst import_db name list_collection_names
       is_ImportError is_Exception cls].

(** Splits on everything the world can do. *)
Ltac destruct_world w :=
  let nm := fresh "nm" in
  let lst := fresh "lst" in
  let e := fresh "e" in
  let env := fresh "env" in
  destruct w as [[[[nm lst]|]|e] env];
  try destruct nm as [|?|?]; try destruct lst as [?|?];
  repeat match goal with e : py_exception |- _ => destruct e as [[] ?] end.


Lemma dom_insert_in {V} (m : gmap pystr V) (k : pystr) (v : V)
    (D : gset pystr) :
  dom m = D → k ∈ D → dom (<[k:=v]> m) = D.
Proof.
  intros <- Hk. rewrite dom_insert_L. apply set_eq. intros x.
  rewrite elem_of_union, elem_of_singleton. split.
  - by intros [->|Hx].
  - by right.
Qed.

Lemma dom_display6 {V} (k0 k1 k2 k3 k4 k5 : pystr) (v0 v1 v2 v3 v4 v5 : V) :
  dom (<[k5:=v5]> (<[k4:=v4]> (<[k3:=v3]> (<[k2:=v2]> (<[k1:=v1]>
         (<[k0:=v0]> (∅ : gmap pystr V)))))))
  = list_to_set [k0; k1; k2; k3; k4; k5].
Proof.
  apply set_eq. intros x.
  rewrite !dom_insert, dom_empty, elem_of_list_to_set.
  rewrite !elem_of_union, !elem_of_singleton, !elem_of_cons, elem_of_nil,
    elem_of_empty.
  tauto.
Qed.

Ltac key_in :=
  apply elem_of_list_to_set;
  repeat first [apply list_elem_of_here | apply list_elem_of_further].

(** The key set of a dict after a series of writes to keys it has; the
    six keys are made opaque first, so that they are compared by name. *)
Ltac solve_dom_rec :=
  lazymatch goal with
  | |- dom (<[_:=_]> (<[_:=_]> (<[_:=_]> (<[_:=_]> (<[_:=_]>
              (<[_:=_]> ∅)))))) = _ => apply dom_display6
  | |- dom (<[_:=_]> _) = _ => apply dom_insert_in; [solve_dom_rec | key_in]
  end.
Ltac solve_dom :=
  generalize (lit "backend") (lit "database") (lit "database_url")
    (lit "database_name") (lit "connection_status") (lit "collections");
  intros; solve_dom_rec.







(** * Further properties *)

(** ** The effective base *)

Lemma py_or_nonempty (x y : pystr) : x ≠ [] → py_or x y = x.
Proof. by destruct x. Qed.

Lemma effective_base_stable (topic : pystr) :
  let b := py_or (strip topic) (lit "Introduction to Learning") in
  b ≠ [] ∧ strip b = b.
Proof.
  unfold py_or. destruct (strip topic) as [|c s] eqn:E; cbn [truthy].
  - split; [by vm_compute | reflexivity].
  - split; [done|]. rewrite <- E. apply strip_idemp.
Qed.

(** X1. The base of a result is never empty and carries no whitespace at
    either end. *)
Theorem base_nonempty_stripped topic :
  Returns (generate_content topic) (λ r,
    base r ≠ [] ∧ strip (base r) = base r).
Proof.
  destruct (generate_content_labels topic) as (r & Hr & Hb & _).
  exists r. split; [exact Hr|]. rewrite Hb. apply effective_base_stable.
Qed.

(** X2. Generating again from the base of a result gives the same
    result. *)
Theorem generate_content_base_fixpoint topic :
  Returns (generate_content topic) (λ r, generate_content (base r) = Ok r).
Proof.
  destruct (generate_content_labels topic) as (r & Hr & Hb & _).
  exists r. split; [exact Hr|]. rewrite <- Hr, Hb.
  destruct (effective_base_stable topic) as [Hne Hs].
  unfold generate_content. by rewrite Hs, (py_or_nonempty _ _ Hne).
Qed.

(** X3. Two topics that are not blank give the same result exactly when
    they are equal up to surrounding whitespace. *)
Theorem generate_content_eq_iff topic1 topic2 :
  strip topic1 ≠ [] → strip topic2 ≠ [] →
  generate_content topic1 = generate_content topic2 ↔
  strip topic1 = strip topic2.
Proof.
  intros H1 H2. split.
  - intros Heq.
    destruct (generate_content_labels topic1) as (r1 & Hr1 & Hb1 & _).
    destruct (generate_content_labels topic2) as (r2 & Hr2 & Hb2 & _).
    rewrite Hr1, Hr2 in Heq. injection Heq as <-.
    rewrite Hb1 in Hb2. by rewrite !py_or_nonempty in Hb2.
  - intros Heq. unfold generate_content. by rewrite Heq.
Qed.

Lemma generate_content_eq_iff_witness :
  generate_content (lit "  Rust") = generate_content (lit "Rust ") ∧
  generate_content (lit "Rust") ≠ generate_content (lit "Go").
Proof.
  split.
  - apply (generate_content_eq_iff (lit "  Rust") (lit "Rust ")).
    + vm_compute. discriminate.
    + vm_compute. discriminate.
    + reflexivity.
  - intros H.
    apply (generate_content_eq_iff (lit "Rust") (lit "Go")) in H.
    + vm_compute in H. discriminate H.
    + vm_compute. discriminate.
    + vm_compute. discriminate.
Defined.

(** X4. Every explanation and every example prompt of a result contains
    the base, also the ones filed under the base-free fourth label. *)
Theorem texts_contain_base topic :
  Returns (generate_content topic) (λ r,
    map_Forall (λ _ text, Substring (base r) text) (explanations r) ∧
    map_Forall (λ _ prompts, Forall (Substring (base r)) prompts)
      (examples r)).
Proof.
  run_generator b. split.
  - repeat (apply map_Forall_insert_2; [auto with pystr|]).
    apply map_Forall_empty.
  - repeat (apply map_Forall_insert_2;
              [repeat apply Forall_cons_2; auto with pystr|]).
    apply map_Forall_empty.
Qed.

(** ** POST /api/generate, continued *)

(** X5. The endpoint answers 400 exactly to blank topics, 500 exactly to
    topics that are not blank and hold a lone surrogate, and 200 to all
    others; it never answers with another status. *)
Theorem generate_endpoint_status payload :
  let response := (post_api_generate payload).2 in
  (status response = 400 ∧ forallb isspace (topic payload) = true) ∨
  (status response = 200 ∧ forallb isspace (topic payload) = false ∧
   utf8_encodable (topic payload) = true) ∨
  (status response = 500 ∧ forallb isspace (topic payload) = false ∧
   utf8_encodable (topic payload) = false).
Proof.
  cbv zeta.
  destruct (post_api_generate_cases payload)
    as [[E ->]|(E & r & _ & _ & ->)].
  - left. split; [reflexivity|]. by apply strip_nil.
  - right.
    assert (forallb isspace (topic payload) = false) as F.
    { destruct (forallb isspace (topic payload)) eqn:F; [|done].
      by apply strip_nil in F. }
    destruct (utf8_encodable (topic payload)); [left|right]; done.
Qed.

(** X6. The body of a 200 answer has the stripped topic as its base: the
    fallback text is never substituted for a request that is served, and
    the generator was called once, with the stripped topic. *)
Theorem generate_endpoint_body payload r :
  body (post_api_generate payload).2 = Json r →
  base r = strip (topic payload) ∧ base r ≠ [] ∧
  (post_api_generate payload).1 = [strip (topic payload)].
Proof.
  destruct (post_api_generate_cases payload)
    as [[E ->]|(E & r' & _ & Hb & ->)].
  - discriminate.
  - cbn [snd fst]. destruct (utf8_encodable (topic payload)); [|discriminate].
    cbn [body]. intros [= <-]. by rewrite Hb.
Qed.

Lemma generate_endpoint_body_witness :
  ∃ r, base r = lit "Go" ∧ base r ≠ [] ∧
       (post_api_generate {| topic := lit " Go " |}).1 = [lit "Go"].
Proof.
  destruct (post_api_generate_cases {| topic := lit " Go " |})
    as [[E _]|(_ & r & _ & _ & Hp)].
  - vm_compute in E. discriminate E.
  - exists r.
    apply (generate_endpoint_body {| topic := lit " Go " |} r).
    rewrite Hp. reflexivity.
Defined.

(** ** GET /test, continued *)

(** In a world whose exceptions are all instances of [Exception], the
    handler returns. *)
Lemma Answers_Returns w P :
  catchable w = true → Answers w P → Returns (test_database w) P.
Proof.
  unfold Answers, catchable, escapes. intros Hc H.
  destruct (test_database w) as [response|e]; [by exists response|].
  destruct H as [He Hin]. rewrite forallb_forall in Hc.
  apply list_elem_of_In, Hc in Hin. congruence.
Qed.

Ltac solve_escapes :=
  lazymatch goal with
  | |- escapes _ _ =>
      split;
      [ reflexivity
      | cbv [raised import_db name list_collection_names app];
        solve [repeat first [apply list_elem_of_here
                            | apply list_elem_of_further]] ]
  end.

(** Splits on everything the world can do and runs the handler in each
    case; what is left are the cases in which a body is returned. *)
Ltac handler_cases w :=
  destruct_world w; unfold Answers; run_handler; try solve_escapes.

(** X7. Unless an exception that is not an instance of [Exception]
    escapes, the handler returns a body; the body always has the same six
    keys, and [backend] always reads "Running". *)
Theorem test_database_shape w :
  Answers w (λ response,
    dom response
    = list_to_set [lit "backend"; lit "database"; lit "database_url";
                   lit "database_name"; lit "connection_status";
                   lit "collections"] ∧
    response !! lit "backend" = Some (VStr (check_mark ++ lit " Running"))).
Proof.
  handler_cases w.
  all: split; [solve_dom | lookup_response; reflexivity].
Qed.

(** X8. [database_url] and [database_name] report only whether the
    environment variable is set to a non-empty value; what the database
    probe wrote there ("Configured", [db.name]) never reaches the body. *)
Theorem test_database_env_fields w :
  Answers w (λ response,
    response !! lit "database_url"
    = Some (VStr (if env_set w (lit "DATABASE_URL")
                  then check_mark ++ lit " Set"
                  else cross_mark ++ lit " Not Set")) ∧
    response !! lit "database_name"
    = Some (VStr (if env_set w (lit "DATABASE_NAME")
                  then check_mark ++ lit " Set"
                  else cross_mark ++ lit " Not Set")) ∧
    (∀ key, env_set w key = true ↔
            ∃ v, getenv w key = Some v ∧ v ≠ [])).
Proof.
  handler_cases w.
  all: split; [lookup_response; reflexivity|].
  all: split; [lookup_response; reflexivity|].
  all: intros key; unfold env_set; cbn [getenv].
  all: destruct (env key) as [[|c v]|]; cbn [truthy].
  all: split; [try discriminate; eauto | intros (v' & [= <-] & Hv); done].
Qed.

(** X9. [connection_status] reads "Connected" exactly when the import
    gave an object and reading its name raised nothing, also when listing
    the collections fails afterwards; otherwise it stays "Not Connected". *)
Theorem test_database_connection_status w :
  Answers w (λ response,
    ∃ c, response !! lit "connection_status" = Some (VStr c) ∧
      (c = lit "Connected" ∨ c = lit "Not Connected") ∧
      (c = lit "Connected" ↔
       ∃ db has, import_db w = Ok (Some db) ∧ hasattr_name db = Ok has)).
Proof.
  handler_cases w.
  all: eexists; split; [lookup_response; reflexivity|].
  all: split; [by (left + right)|].
  all: cbn [import_db]; split.
  all: first
    [ intros H; vm_compute in H; discriminate H
    | intros _; eexists _, _; split; reflexivity
    | intros _; reflexivity
    | intros (db & has & [= <-] & Hh); cbv [hasattr_name name] in Hh;
      discriminate Hh ].
Qed.

(** X10. The status reads "Connected & Working" exactly when the
    collections were listed; [collections] then holds the first 10 names,
    and is empty in every other case. *)
Theorem test_database_working w :
  Answers w (λ response,
    ∃ s l, response !! lit "database" = Some (VStr s) ∧
           response !! lit "collections" = Some (VList l) ∧
      ((s = check_mark ++ lit " Connected & Working" ∧
        ∃ db has cs, import_db w = Ok (Some db) ∧ hasattr_name db = Ok has ∧
                     list_collection_names db = Ok cs ∧ l = take 10 cs) ∨
       (s ≠ check_mark ++ lit " Connected & Working" ∧ l = [] ∧
        ¬ ∃ db has cs, import_db w = Ok (Some db) ∧
                       hasattr_name db = Ok has ∧
                       list_collection_names db = Ok cs))).
Proof.
  handler_cases w.
  all: eexists _, _; split; [lookup_response; reflexivity|].
  all: split; [lookup_response; reflexivity|].
  all: cbn [import_db].
  all: try (left; split; [reflexivity|]; eexists _, _, _;
            repeat split; reflexivity).
  all: right; split; [intros H; vm_compute in H; discriminate H|].
  all: split; [reflexivity|].
  all: intros (db & has & cs' & [= <-] & Hh & Hl).
  all: cbv [hasattr_name name list_collection_names] in Hh, Hl.
  all: discriminate.
Qed.

(** X11. The status is never left at its initial "Not Available" nor at
    the intermediate "Available", and it is never longer than 75 code
    points, however long the message of the exception. *)
Theorem test_database_status_bounded w :
  Answers w (λ response,
    ∃ s, response !! lit "database" = Some (VStr s) ∧
      s ≠ cross_mark ++ lit " Not Available" ∧
      s ≠ check_mark ++ lit " Available" ∧
      (length s ≤ 75)%nat).
Proof.
  handler_cases w.
  all: eexists; split; [lookup_response; reflexivity|].
  all: split; [intros H; vm_compute in H; discriminate H|].
  all: split; [intros H; vm_compute in H; discriminate H|].
  all: rewrite ?length_app, ?length_take.
  all: repeat match goal with
         | |- context [length (lit ?t)] =>
             let n := eval vm_compute in (length (lit t)) in
             change (length (lit t)) with n
         end.
  all: cbn [length check_mark cross_mark warning_sign]; lia.
Qed.
